(** * Typeless Writer: the content-generation core of [streamlit_app.py]

    Shallow embedding of [build_user_message], [generate_with_gemini],
    [generate_with_openai] and the "AI 轉換" branch of [main], with the
    properties stated in the specification of the repository; then of
    [load_data], [save_data], [get_api_settings] and the settings, project
    and fragment handlers of [main], with properties read off the source. *)

From Stdlib Require Import String Ascii List Bool Arith Lia QArith.
From Stdlib Require Import Numbers.DecimalString.
Import ListNotations.
Open Scope nat_scope.
Open Scope string_scope.

(* ================================================================= *)
(** ** Python strings *)

(** [f"{i}"] on a Python [int]: its decimal digits. *)
Definition py_str_int (n : nat) : string :=
  NilEmpty.string_of_uint (Nat.to_uint n).

(** Truthiness of a Python [str]: non-empty. *)
Definition str_truthy (s : string) : bool :=
  negb (String.eqb s "").

(* ================================================================= *)
(** ** Data model *)

(** A fragment as stored in [typeless_data.json]:
    [{"content": ..., "created_at": datetime.now().isoformat()}]. *)
Record fragment := mkFragment {
  content : string;
  created_at : string
}.

(** A Python [dict] of [str] to [str], as an association list with distinct
    keys; [None] is the Python [None] (the default [promotion=None]). *)
Definition str_dict := list (string * string).

(** [d.get(k)]: the value, or [None]. *)
Fixpoint dict_get (d : str_dict) (k : string) : option string :=
  match d with
  | [] => None
  | (k', v) :: d' => if String.eqb k k' then Some v else dict_get d' k
  end.

(** Truthiness of [d.get(k)]: [None] is falsy, a [str] is truthy iff non-empty. *)
Definition get_truthy (d : str_dict) (k : string) : bool :=
  match dict_get d k with
  | None => false
  | Some v => str_truthy v
  end.

(** [d[k]] on a key known to be present (guarded by [get_truthy] below). *)
Definition dict_index (d : str_dict) (k : string) : string :=
  match dict_get d k with Some v => v | None => "" end.

(** Truthiness of a [dict]: non-empty. *)
Definition dict_truthy (d : str_dict) : bool :=
  match d with [] => false | _ => true end.

(* ================================================================= *)
(** ** [build_user_message] *)

Definition LEAD_IN : string :=
  "以下是我的靈感碎片，請幫我整理成文章和社群貼文：
" ++ "
".

(** Line 122: [f"【碎片 {i}】\n{fragment['content']}\n\n"]. *)
Definition fragment_block (i : nat) (f : fragment) : string :=
  "【碎片 " ++ py_str_int i ++ "】
" ++ content f ++ "
" ++ "
".

(** Lines 121-122: [for i, fragment in enumerate(fragments, start)]
    with [message += ...]. *)
Fixpoint enumerate_loop (i : nat) (fragments : list fragment) (message : string)
  : string :=
  match fragments with
  | [] => message
  | fragment :: rest => enumerate_loop (S i) rest (message ++ fragment_block i fragment)
  end.

(** Line 124: [promotion and promotion.get("link") and promotion.get("product_name")]. *)
Definition promotion_guard (promotion : option str_dict) : bool :=
  match promotion with
  | None => false
  | Some d => dict_truthy d && get_truthy d "link" && get_truthy d "product_name"
  end.

(** Lines 125-128, with [promotion['product_name']] and [promotion['link']]. *)
Definition promotion_block (product_name link : string) : string :=
  "
" ++ "---
" ++ "導購資訊：
" ++
  "產品/服務名稱：" ++ product_name ++ "
" ++
  "推廣連結：" ++ link ++ "
" ++
  "請在社群貼文中自然地融入這個推廣連結。
".

Definition build_user_message (fragments : list fragment) (promotion : option str_dict)
  : string :=
  let message := LEAD_IN in
  let message := enumerate_loop 1 fragments message in
  match promotion with
  | Some d =>
      if promotion_guard promotion
      then message ++ promotion_block (dict_index d "product_name") (dict_index d "link")
      else message
  | None => message
  end.

Definition frag (s : string) : fragment := mkFragment s "2026-01-01T00:00:00".


(** The promotion as the specification reads it: both [product_name] and
    [link] present and non-empty, else no promotion. *)
Definition promotion_fields (promotion : option str_dict) : option (string * string) :=
  match promotion with
  | Some d =>
      match dict_get d "product_name", dict_get d "link" with
      | Some n, Some l => if str_truthy n && str_truthy l then Some (n, l) else None
      | _, _ => None
      end
  | None => None
  end.

Definition promotion_tail (promotion : option str_dict) : string :=
  match promotion_fields promotion with
  | Some (n, l) => promotion_block n l
  | None => ""
  end.

(** The prompt as the specification describes it: the lead-in, then the
    list of numbered blocks [【碎片 N】 + content + blank line] for
    N = 1 .. length, concatenated. *)
Definition rendered_blocks (fragments : list fragment) : list string :=
  map (fun p => "【碎片 " ++ py_str_int (fst p) ++ "】
" ++ content (snd p) ++ "
" ++ "
") (combine (seq 1 (List.length fragments)) fragments).

Definition prompt_spec (fragments : list fragment) : string :=
  LEAD_IN ++ String.concat "" (rendered_blocks fragments).

Fixpoint numbered_blocks (i : nat) (fragments : list fragment) : string :=
  match fragments with
  | [] => ""
  | f :: rest => fragment_block i f ++ numbered_blocks (S i) rest
  end.


(* ================================================================= *)
(** ** Python values returned by [json.loads] *)

(** The JSON values of the responses (numbers are not used by this program
    and are left out). *)
#[local] Set Warnings "-register-all".
Inductive json :=
| JNull
| JBool (b : bool)
| JStr (s : string)
| JArr (items : list json)
| JObj (members : list (string * json)).

(** Python exceptions raised along the generation path; [str(e)] is the
    message. *)
Inductive exn :=
| TransportError (msg : string)   (** raised by the provider SDK *)
| JSONDecodeError (msg : string)  (** raised by [json.loads] *)
| KeyError (key : string)         (** raised by [d[key]] *)
| TypeError (msg : string).

Definition exn_str (e : exn) : string :=
  match e with
  | TransportError m | JSONDecodeError m | TypeError m => m
  | KeyError k => "'" ++ k ++ "'"
  end.

(** A Python computation that returns a value or raises. *)
Inductive outcome (A : Type) :=
| Ok (a : A)
| Raise (e : exn).
Arguments Ok {A} a.
Arguments Raise {A} e.

Definition bind {A B} (m : outcome A) (k : A -> outcome B) : outcome B :=
  match m with Ok a => k a | Raise e => Raise e end.
Notation "x <- m ;; k" := (bind m (fun x => k)) (at level 61, m at next level, right associativity).

Fixpoint json_assoc (kvs : list (string * json)) (k : string) : option json :=
  match kvs with
  | [] => None
  | (k', v) :: rest => if String.eqb k k' then Some v else json_assoc rest k
  end.

(** [v[k]] on a parsed JSON object. *)
Definition json_getitem (v : json) (k : string) : outcome json :=
  match v with
  | JObj kvs => match json_assoc kvs k with Some x => Ok x | None => Raise (KeyError k) end
  | _ => Raise (TypeError "object is not subscriptable")
  end.

(** [v.get(k, default)] on a parsed JSON object. *)
Definition json_get (v : json) (k : string) (default : json) : outcome json :=
  match v with
  | JObj kvs => match json_assoc kvs k with Some x => Ok x | None => Ok default end
  | _ => Raise (TypeError "object has no attribute 'get'")
  end.

(* ================================================================= *)
(** ** The fixed system instruction *)

Definition NL : string := String "010"%char EmptyString.

(** The source text contains ASCII double quotes; it is written here with
    ['] in their place, which [with_dq] turns back into ["034"]. *)
Definition with_dq (s : string) : string :=
  string_of_list_ascii
    (map (fun c => if Ascii.eqb c "'"%char then "034"%char else c) (list_ascii_of_string s)).

Definition SYSTEM_PROMPT : string := with_dq
"你是一位專業的內容編輯與 SEO 專家。你的任務是將使用者提供的「碎片化靈感」整理成結構完整的文章和社群貼文。

請嚴格遵守以下規則：
1. **語氣保留**：輸出的文章必須保留使用者原始輸入的「口語感」與「個人風格」，僅做錯別字修正與過場連接，不可過度修飾成機器人語氣。
2. **SEO 文章結構**：
   - 必須包含一個 H1 主標題
   - 必須包含 2-4 個 H2 副標題
   - 段落要通順有邏輯
   - 控制在 800-1500 字左右
3. **社群貼文**：
   - 生成 4-6 篇短貼文
   - 適合 Facebook、Threads、Instagram
   - 每篇 100-200 字
   - 分段清晰，適合手機閱讀
   - 可以使用 emoji 增加吸引力

請以 JSON 格式回傳結果，格式如下：
{
  'article': {
    'title': 'H1 主標題',
    'content': '完整的 Markdown 文章內容（包含 ## H2 標籤）'
  },
  'socialPosts': [
    {
      'platform': 'Facebook',
      'content': '貼文內容'
    }
  ]
}".

(* ================================================================= *)
(** ** Outbound requests and the two adapters *)

Record generation_config := mkGenerationConfig {
  response_mime_type : string;
  temperature : Q
}.

(** One outbound call of a provider SDK, with the arguments the source passes. *)
Inductive request :=
| GeminiGenerateContent (api_key : string) (model : string) (contents : string)
    (config : generation_config)
    (** [genai.configure(api_key=...)], [GenerativeModel(model).generate_content(...)] *)
| OpenAIChatCreate (api_key : string) (model : string)
    (messages : list (string * string)) (temp : Q) (response_format : str_dict)
    (** [OpenAI(api_key=...).chat.completions.create(...)] *)
.

Section Adapter.

(** [json.loads], on the response text. *)
Variable json_loads : string -> outcome json.
(** The provider service: the response text of a request
    ([response.text], [response.choices[0].message.content]), or the
    exception the SDK raises. *)
Variable backend : request -> outcome string.

Definition gemini_request (api_key : string) (fragments : list fragment)
    (promotion : option str_dict) : request :=
  let user_message := build_user_message fragments promotion in
  let full_prompt := SYSTEM_PROMPT ++ NL ++ NL ++ user_message in
  GeminiGenerateContent api_key "gemini-2.0-flash" full_prompt
    (mkGenerationConfig "application/json" (7 # 10)).

(** Lines 81-97; the result is the list of outbound requests and the value
    returned (or the exception raised). *)
Definition generate_with_gemini (api_key : string) (fragments : list fragment)
    (promotion : option str_dict) : list request * outcome json :=
  let req := gemini_request api_key fragments promotion in
  ([req], text <- backend req ;; json_loads text).

Definition openai_request (api_key : string) (fragments : list fragment)
    (promotion : option str_dict) : request :=
  let user_message := build_user_message fragments promotion in
  OpenAIChatCreate api_key "gpt-4o-mini"
    [("system", SYSTEM_PROMPT); ("user", user_message)]
    (7 # 10) [("type", "json_object")].

(** Lines 99-115. *)
Definition generate_with_openai (api_key : string) (fragments : list fragment)
    (promotion : option str_dict) : list request * outcome json :=
  let req := openai_request api_key fragments promotion in
  ([req], text <- backend req ;; json_loads text).

End Adapter.

(* ================================================================= *)
(** ** A [json.loads] for concrete inputs *)

(** [json.loads] on the JSON texts of this program: objects, arrays, strings
    without escape sequences, [true], [false], [null], and whitespace.
    A Python [dict] is built key by key ([d[k] = v]: a repeated key keeps its
    first position and takes the last value). Other texts are reported as
    [JSONDecodeError]. *)
Module JsonLoads.

Definition is_ws (c : ascii) : bool :=
  Ascii.eqb c " "%char || Ascii.eqb c "010"%char || Ascii.eqb c "013"%char ||
  Ascii.eqb c "009"%char.

Fixpoint skip_ws (s : list ascii) : list ascii :=
  match s with
  | c :: r => if is_ws c then skip_ws r else s
  | [] => []
  end.

Fixpoint dict_setitem (kvs : list (string * json)) (k : string) (v : json)
  : list (string * json) :=
  match kvs with
  | [] => [(k, v)]
  | (k', v') :: rest =>
      if String.eqb k k' then (k', v) :: rest else (k', v') :: dict_setitem rest k v
  end.

(** The body of a string literal, after its opening quote. *)
Fixpoint string_body (s : list ascii) (acc : list ascii) : option (string * list ascii) :=
  match s with
  | [] => None
  | c :: r =>
      if Ascii.eqb c "034"%char then Some (string_of_list_ascii (rev acc), r)
      else if Ascii.eqb c "092"%char then None
      else string_body r (c :: acc)
  end.

Fixpoint literal (lit s : list ascii) : option (list ascii) :=
  match lit, s with
  | [], _ => Some s
  | c :: lit', d :: s' => if Ascii.eqb c d then literal lit' s' else None
  | _ :: _, [] => None
  end.

Fixpoint value (fuel : nat) (s : list ascii) {struct fuel} : option (json * list ascii) :=
  match fuel with
  | 0 => None
  | S k =>
      match skip_ws s with
      | [] => None
      | c :: r =>
          if Ascii.eqb c "{"%char then
            match skip_ws r with
            | d :: r' => if Ascii.eqb d "}"%char then Some (JObj [], r') else members k r []
            | [] => None
            end
          else if Ascii.eqb c "["%char then
            match skip_ws r with
            | d :: r' => if Ascii.eqb d "]"%char then Some (JArr [], r') else elements k r []
            | [] => None
            end
          else if Ascii.eqb c "034"%char then
            match string_body r [] with Some (str, r') => Some (JStr str, r') | None => None end
          else
            match literal (list_ascii_of_string "true") (c :: r) with
            | Some r' => Some (JBool true, r')
            | None =>
              match literal (list_ascii_of_string "false") (c :: r) with
              | Some r' => Some (JBool false, r')
              | None =>
                match literal (list_ascii_of_string "null") (c :: r) with
                | Some r' => Some (JNull, r')
                | None => None
                end
              end
            end
      end
  end
with elements (fuel : nat) (s : list ascii) (acc : list json) {struct fuel}
  : option (json * list ascii) :=
  match fuel with
  | 0 => None
  | S k =>
      match value k s with
      | None => None
      | Some (v, r) =>
          match skip_ws r with
          | c :: r' =>
              if Ascii.eqb c ","%char then elements k r' (v :: acc)
              else if Ascii.eqb c "]"%char then Some (JArr (rev (v :: acc)), r')
              else None
          | [] => None
          end
      end
  end
with members (fuel : nat) (s : list ascii) (acc : list (string * json)) {struct fuel}
  : option (json * list ascii) :=
  match fuel with
  | 0 => None
  | S k =>
      match skip_ws s with
      | c :: r =>
          if Ascii.eqb c "034"%char then
            match string_body r [] with
            | None => None
            | Some (key, r1) =>
                match skip_ws r1 with
                | d :: r2 =>
                    if Ascii.eqb d ":"%char then
                      match value k r2 with
                      | None => None
                      | Some (v, r3) =>
                          match skip_ws r3 with
                          | e :: r4 =>
                              if Ascii.eqb e ","%char then members k r4 (dict_setitem acc key v)
                              else if Ascii.eqb e "}"%char
                              then Some (JObj (dict_setitem acc key v), r4)
                              else None
                          | [] => None
                          end
                      end
                    else None
                | [] => None
                end
            end
          else None
      | [] => None
      end
  end.

Definition loads (text : string) : outcome json :=
  let s := list_ascii_of_string text in
  match value (2 * List.length s + 2) s with
  | Some (v, rest) =>
      match skip_ws rest with
      | [] => Ok v
      | _ => Raise (JSONDecodeError "Extra data")
      end
  | None => Raise (JSONDecodeError "Expecting value")
  end.

End JsonLoads.

(** The text of a JSON document written with ['] for ["034"]. *)
Definition json_text (s : string) : string := with_dq s.

(* ================================================================= *)
(** ** The "AI 轉換" branch of [main] (lines 341-391) *)

(** [data["settings"]]. *)
Record settings := mkSettings {
  api_provider : string;
  settings_api_key : string
}.

(** What the branch shows: a warning, an error message, the new
    [st.session_state.result], or nothing new (button not pressed). *)
Inductive ui_event :=
| UiWarning (msg : string)
| UiError (msg : string)
| UiStored (result : json)
| UiIdle.

Section Main.

Variable json_loads : string -> outcome json.
Variable backend : request -> outcome string.

(** Lines 369-371. *)
Definition main_promotion (product_name promo_link : string) : option str_dict :=
  if str_truthy product_name && str_truthy promo_link
  then Some [("product_name", product_name); ("link", promo_link)]
  else None.

(** Lines 375-386: the provider is chosen by [data["settings"]["api_provider"]]
    and the key is [data["settings"]["api_key"]]. *)
Definition main_dispatch (s : settings) (fragments : list fragment)
    (promotion : option str_dict) : list request * outcome json :=
  if String.eqb (api_provider s) "gemini"
  then generate_with_gemini json_loads backend (settings_api_key s) fragments promotion
  else generate_with_openai json_loads backend (settings_api_key s) fragments promotion.

(** Lines 342-391, with [fragments = data["projects"][current_project]["fragments"]],
    the two text inputs of the promotion expander and whether the generate
    button was pressed in this run. *)
Definition main_generate (s : settings) (using_secrets : bool)
    (fragments : list fragment) (product_name promo_link : string) (clicked : bool)
  : list request * ui_event :=
  match fragments with
  | [] => ([], UiWarning "⚠️ 請先在「捕捉靈感」模式中加入一些碎片")
  | _ :: _ =>
      if negb using_secrets && negb (str_truthy (settings_api_key s))
      then ([], UiError "⚠️ 請先在側邊欄設定中輸入 API Key")
      else if clicked then
        let promotion := main_promotion product_name promo_link in
        let '(trace, out) := main_dispatch s fragments promotion in
        (trace, match out with
                | Ok result => UiStored result
                | Raise e => UiError ("❌ 生成失敗：" ++ exn_str e)
                end)
      else ([], UiIdle)
  end.

End Main.

(** The request [main] sends for the given settings (selected provider). *)
Definition selected_request (s : settings) (fragments : list fragment)
    (promotion : option str_dict) : request :=
  if String.eqb (api_provider s) "gemini"
  then gemini_request (settings_api_key s) fragments promotion
  else openai_request (settings_api_key s) fragments promotion.

(* ================================================================= *)
(** ** Reading a stored result (lines 394-419) *)

Record social_post := mkSocialPost { platform : string; post_content : string }.
Record article := mkArticle { title : string; article_content : string }.
Record generation_result := mkGenerationResult {
  result_article : article;
  social_posts : list social_post
}.

(** The JSON document of the shape the system instruction asks for. *)
Definition social_post_to_json (p : social_post) : json :=
  JObj [("platform", JStr (platform p)); ("content", JStr (post_content p))].

Definition generation_result_to_json (r : generation_result) : json :=
  JObj [("article", JObj [("title", JStr (title (result_article r)));
                          ("content", JStr (article_content (result_article r)))]);
        ("socialPosts", JArr (map social_post_to_json (social_posts r)))].

Fixpoint read_posts (posts : list json) : outcome (list (json * json)) :=
  match posts with
  | [] => Ok []
  | post :: rest =>
      pf <- json_getitem post "platform" ;;
      pc <- json_getitem post "content" ;;
      tl <- read_posts rest ;;
      Ok ((pf, pc) :: tl)
  end.

(** The values the display reads (the JSON values themselves): [result['article']['title']],
    [result['article']['content']], and [post['platform']], [post["content"]]
    for each [post] of [result.get("socialPosts", [])]. *)
Definition read_result (result : json) : outcome (json * json * list (json * json)) :=
  a <- json_getitem result "article" ;;
  t <- json_getitem a "title" ;;
  c <- json_getitem a "content" ;;
  posts <- json_get result "socialPosts" (JArr []) ;;
  match posts with
  | JArr items => ps <- read_posts items ;; Ok (t, c, ps)
  | JObj [] | JStr "" => Ok (t, c, [])  (* iterating an empty dict or str *)
  | _ => Raise (TypeError "string indices must be integers")
  end.

(** The request semantics shared by both transports: the key, the whole
    instruction text (system part, blank line, user part), the JSON-mode
    flag and the temperature. *)
Definition request_key (r : request) : string :=
  match r with
  | GeminiGenerateContent k _ _ _ | OpenAIChatCreate k _ _ _ _ => k
  end.

Definition request_prompt (r : request) : option string :=
  match r with
  | GeminiGenerateContent _ _ c _ => Some c
  | OpenAIChatCreate _ _ [("system", sys); ("user", user)] _ _ => Some (sys ++ NL ++ NL ++ user)
  | OpenAIChatCreate _ _ _ _ _ => None
  end.

Definition request_json_mode (r : request) : bool :=
  match r with
  | GeminiGenerateContent _ _ _ cfg => String.eqb (response_mime_type cfg) "application/json"
  | OpenAIChatCreate _ _ _ _ rf =>
      match dict_get rf "type" with Some t => String.eqb t "json_object" | None => false end
  end.

Definition request_temperature (r : request) : Q :=
  match r with
  | GeminiGenerateContent _ _ _ cfg => temperature cfg
  | OpenAIChatCreate _ _ _ t _ => t
  end.

Definition scenario_text : string :=
  json_text "{'article':{'title':'T','content':'C'},'socialPosts':[{'platform':'FB','content':'P1'}]}".

Definition scenario_result : generation_result :=
  mkGenerationResult (mkArticle "T" "C") [mkSocialPost "FB" "P1"].

(* ================================================================= *)
(** ** [str.strip()] *)

(** [str.isspace()] on a one-byte character: U+0009-000D, U+001C-001F, U+0020. *)
Definition is_ascii_space (c : ascii) : bool :=
  let n := nat_of_ascii c in
  (((9 <=? n) && (n <=? 13)) || ((28 <=? n) && (n <=? 31)) || (n =? 32))%nat.

(** [str.isspace()] on a two-byte UTF-8 character: U+0085, U+00A0. *)
Definition is_space2 (c1 c2 : ascii) : bool :=
  ((nat_of_ascii c1 =? 194) && ((nat_of_ascii c2 =? 133) || (nat_of_ascii c2 =? 160)))%nat.

(** [str.isspace()] on a three-byte UTF-8 character: U+1680, U+2000-200A,
    U+2028, U+2029, U+202F, U+205F, U+3000. *)
Definition is_space3 (c1 c2 c3 : ascii) : bool :=
  let a := nat_of_ascii c1 in let b := nat_of_ascii c2 in let c := nat_of_ascii c3 in
  (((a =? 225) && (b =? 154) && (c =? 128)) ||
   ((a =? 226) && (b =? 128) &&
      (((128 <=? c) && (c <=? 138)) || (c =? 168) || (c =? 169) || (c =? 175))) ||
   ((a =? 226) && (b =? 129) && (c =? 159)) ||
   ((a =? 227) && (b =? 128) && (c =? 128)))%nat.

(** Removing the leading whitespace characters of the UTF-8 bytes of a [str]. *)
Fixpoint lstrip_bytes (l : list ascii) : list ascii :=
  match l with
  | [] => []
  | c1 :: r1 =>
      if is_ascii_space c1 then lstrip_bytes r1 else
      match r1 with
      | [] => l
      | c2 :: r2 =>
          if is_space2 c1 c2 then lstrip_bytes r2 else
          match r2 with
          | [] => l
          | c3 :: r3 => if is_space3 c1 c2 c3 then lstrip_bytes r3 else l
          end
      end
  end.

(** The same on the reversed bytes (a character's last byte comes first). *)
Fixpoint lstrip_rev_bytes (l : list ascii) : list ascii :=
  match l with
  | [] => []
  | c1 :: r1 =>
      if is_ascii_space c1 then lstrip_rev_bytes r1 else
      match r1 with
      | [] => l
      | c2 :: r2 =>
          if is_space2 c2 c1 then lstrip_rev_bytes r2 else
          match r2 with
          | [] => l
          | c3 :: r3 => if is_space3 c3 c2 c1 then lstrip_rev_bytes r3 else l
          end
      end
  end.

Definition rstrip_bytes (l : list ascii) : list ascii := rev (lstrip_rev_bytes (rev l)).

(** [s.strip()]: the whitespace characters ([str.isspace]) removed at both
    ends of a [str] given by its UTF-8 bytes. *)
Definition py_strip (s : string) : string :=
  string_of_list_ascii (rstrip_bytes (lstrip_bytes (list_ascii_of_string s))).

(* ================================================================= *)
(** ** Application data and its file (lines 21-35) *)

(** [data]: [{"projects": {name: {"fragments": [...]}}, "current_project": ...,
    "settings": {...}}]; [data["projects"]] as an association list in the
    dict's insertion order. *)
Record app_data := mkAppData {
  projects : list (string * list fragment);
  current_project : string;
  app_settings : settings
}.

Fixpoint assoc_get {V} (kvs : list (string * V)) (k : string) : option V :=
  match kvs with
  | [] => None
  | (k', v) :: rest => if String.eqb k k' then Some v else assoc_get rest k
  end.

(** [d[k] = v] on a Python [dict]: an existing key keeps its position. *)
Fixpoint assoc_set {V} (kvs : list (string * V)) (k : string) (v : V) : list (string * V) :=
  match kvs with
  | [] => [(k, v)]
  | (k', v') :: rest =>
      if String.eqb k k' then (k', v) :: rest else (k', v') :: assoc_set rest k v
  end.

(** The default of [load_data] (line 30). *)
Definition default_data : app_data := mkAppData [] "" (mkSettings "gemini" "").

(** The session's [data] and the content of [typeless_data.json]
    ([None]: no file); the file holds what [json.dump] wrote. *)
Record app_state := mkAppState {
  data : app_data;
  data_file : option app_data
}.

(** Lines 25-30. *)
Definition load_data (file : option app_data) : app_data :=
  match file with Some d => d | None => default_data end.

(** Lines 32-35: the session [data] is written to the file. *)
Definition save_data (d : app_data) (st : app_state) : app_state :=
  mkAppState (data st) (Some d).

(* ================================================================= *)
(** ** The settings sidebar and the project bar (lines 212-273) *)

(** Lines 37-48. [st.secrets] is read through [secrets]; [Raise] stands for
    the exception [st.secrets.get] raises (e.g. no secrets file). *)
Definition get_api_settings (secrets : outcome str_dict)
  : option string * option string * bool :=
  match secrets with
  | Raise _ => (None, None, false)
  | Ok sec =>
      let provider := match dict_get sec "API_PROVIDER" with Some p => p | None => "gemini" end in
      let key := match dict_get sec "API_KEY" with Some k => k | None => "" end in
      if str_truthy key then (Some provider, Some key, true) else (None, None, false)
  end.

(** Line 230: the index of the provider selectbox. *)
Definition provider_index (s : settings) : nat :=
  if String.eqb (api_provider s) "gemini" then 0 else 1.

(** Lines 241-245: [💾 儲存設定]. *)
Definition save_settings (provider key : string) (st : app_state) : app_state :=
  let d := data st in
  let d' := mkAppData (projects d) (current_project d) (mkSettings provider key) in
  save_data d' (mkAppState d' (data_file st)).


(** Lines 264-270: [➕ 建立] with the text of [新專案名稱]. *)
Definition create_project (new_project : string) (st : app_state) : app_state :=
  if str_truthy (py_strip new_project) then
    let d := data st in
    let d' := mkAppData (assoc_set (projects d) (py_strip new_project) [])
                        (py_strip new_project) (app_settings d) in
    save_data d' (mkAppState d' (data_file st))
  else st.

(* ================================================================= *)
(** ** Capturing and deleting fragments (lines 286-338) *)

(** Lines 301-311: [📝 加入碎片] with the text area and [datetime.now().isoformat()]. *)
Definition add_fragment (current : string) (new_fragment now : string) (st : app_state)
  : outcome app_state :=
  if str_truthy (py_strip new_fragment) then
    let fragment := mkFragment (py_strip new_fragment) now in
    let d := data st in
    match assoc_get (projects d) current with
    | None => Raise (KeyError current)
    | Some fs =>
        let d' := mkAppData (assoc_set (projects d) current (fragment :: fs))
                            (current_project d) (app_settings d) in
        Ok (save_data d' (mkAppState d' (data_file st)))
    end
  else Ok st.

(** [lst.pop(i)]: [None] when [i] is out of range (Python raises
    [IndexError]); the button loop of line 321 only passes indices in range. *)
Definition list_pop {A} (l : list A) (i : nat) : option (list A) :=
  if Nat.ltb i (List.length l) then Some (firstn i l ++ skipn (S i) l)%list else None.

(** Lines 331-334: [🗑️] of the [i]-th fragment; [None] when Python raises
    ([KeyError] on the project, [IndexError] on [i]). *)
Definition delete_fragment (current : string) (i : nat) (st : app_state) : option app_state :=
  let d := data st in
  match assoc_get (projects d) current with
  | None => None
  | Some fs =>
      match list_pop fs i with
      | None => None
      | Some fs' =>
          let d' := mkAppData (assoc_set (projects d) current fs')
                              (current_project d) (app_settings d) in
          Some (save_data d' (mkAppState d' (data_file st)))
      end
  end.

(* ================================================================= *)
(** ** One run of the generation branch, from the secrets on *)

(** Line 213 and lines 341-391: [using_secrets] comes from [get_api_settings];
    the secret key and provider themselves are not passed on. *)
Definition main_ai_branch (json_loads : string -> outcome json)
    (backend : request -> outcome string) (secrets : outcome str_dict)
    (s : settings) (fragments : list fragment) (product_name promo_link : string)
    (clicked : bool) : list request * ui_event :=
  let '(_, _, using_secrets) := get_api_settings secrets in
  main_generate json_loads backend s using_secrets fragments product_name promo_link clicked.

(** Lines 388 and 394: [st.session_state.result] after the run. *)
Definition session_result (old : option json) (ev : ui_event) : option json :=
  match ev with
  | UiStored r => Some r
  | _ => old
  end.

(* ================================================================= *)
(** * Proofs *)

(** ** String lemmas *)

Lemma append_assoc_str (a b c : string) : (a ++ b) ++ c = a ++ (b ++ c).
Proof. induction a as [|x a IH]; simpl; [reflexivity | now rewrite IH]. Qed.

Lemma append_empty_str (a : string) : a ++ "" = a.
Proof. induction a as [|x a IH]; simpl; [reflexivity | now rewrite IH]. Qed.

Lemma append_cancel_l (a b c : string) : a ++ b = a ++ c -> b = c.
Proof. induction a as [|x a IH]; simpl; [auto | intro H; injection H; auto]. Qed.

Lemma append_length_str (a b : string) :
  String.length (a ++ b) = String.length a + String.length b.
Proof. induction a as [|x a IH]; simpl; [reflexivity | now rewrite IH]. Qed.

Example build_user_message_one :
  build_user_message [frag "today I tried a new recipe"] None =
  "以下是我的靈感碎片，請幫我整理成文章和社群貼文：

【碎片 1】
today I tried a new recipe

".
Proof. reflexivity. Qed.

Example build_user_message_promo :
  build_user_message [frag "A"; frag "B"]
    (Some [("product_name", "Pro"); ("link", "https://x.io")]) =
  "以下是我的靈感碎片，請幫我整理成文章和社群貼文：

【碎片 1】
A

【碎片 2】
B


---
導購資訊：
產品/服務名稱：Pro
推廣連結：https://x.io
請在社群貼文中自然地融入這個推廣連結。
".
Proof. reflexivity. Qed.

Example py_str_int_12 : py_str_int 12 = "12".
Proof. reflexivity. Qed.

(** ** Lemmas on the prompt builder *)

Lemma enumerate_loop_blocks (fs : list fragment) :
  forall i m, enumerate_loop i fs m = m ++ numbered_blocks i fs.
Proof.
  induction fs as [|f fs IH]; intros i m; simpl.
  - now rewrite append_empty_str.
  - now rewrite IH, append_assoc_str.
Qed.

Lemma concat_empty_cons (x : string) (l : list string) :
  String.concat "" (x :: l) = x ++ String.concat "" l.
Proof.
  destruct l as [|y l]; simpl.
  - now rewrite append_empty_str.
  - reflexivity.
Qed.

Lemma numbered_blocks_concat (fs : list fragment) :
  forall i, numbered_blocks i fs =
    String.concat "" (map (fun p => fragment_block (fst p) (snd p))
                          (combine (seq i (List.length fs)) fs)).
Proof.
  induction fs as [|f fs IH]; intro i; [reflexivity|].
  cbn [numbered_blocks List.length seq combine map fst snd].
  now rewrite concat_empty_cons, IH.
Qed.

Lemma numbered_blocks_app (fs : list fragment) (f : fragment) :
  forall i, numbered_blocks i (fs ++ [f]) =
            numbered_blocks i fs ++ fragment_block (i + List.length fs) f.
Proof.
  induction fs as [|g fs IH]; intro i; cbn [numbered_blocks app List.length].
  - now rewrite Nat.add_0_r, !append_empty_str.
  - rewrite IH, <- append_assoc_str.
    now rewrite Nat.add_succ_r.
Qed.

Lemma numbered_blocks_content (fs1 fs2 : list fragment) :
  map content fs1 = map content fs2 ->
  forall i, numbered_blocks i fs1 = numbered_blocks i fs2.
Proof.
  revert fs2; induction fs1 as [|f fs1 IH]; intros [|g fs2] H i; try discriminate;
    [reflexivity|].
  cbn [map] in H. injection H as Hfg Hrest. cbn [numbered_blocks].
  unfold fragment_block. rewrite Hfg.
  now rewrite (IH fs2 Hrest).
Qed.

(** The promotion branch of lines 124-128 appends [promotion_tail]. *)
Lemma build_user_message_eq (fs : list fragment) (p : option str_dict) :
  build_user_message fs p = LEAD_IN ++ numbered_blocks 1 fs ++ promotion_tail p.
Proof.
  unfold build_user_message. rewrite enumerate_loop_blocks, <- append_assoc_str.
  unfold promotion_tail, promotion_fields, promotion_guard.
  destruct p as [d|]; [|now rewrite append_empty_str].
  unfold get_truthy, dict_index.
  destruct (dict_get d "product_name") as [n|] eqn:En;
  destruct (dict_get d "link") as [l|] eqn:El;
    rewrite ?andb_false_r; try now rewrite append_empty_str.
  destruct d as [|kv d]; [discriminate|]. cbn [dict_truthy andb].
  destruct (str_truthy n), (str_truthy l); cbn [andb];
    try reflexivity; now rewrite append_empty_str.
Qed.

Lemma promotion_block_nonempty (n l : string) : promotion_block n l <> "".
Proof. discriminate. Qed.

Lemma fragment_block_nonempty (i : nat) (f : fragment) : fragment_block i f <> "".
Proof. discriminate. Qed.

Lemma nth_error_combine_seq (fs : list fragment) :
  forall i k, nth_error (combine (seq i (List.length fs)) fs) k =
              option_map (fun f => (i + k, f)) (nth_error fs k).
Proof.
  induction fs as [|f fs IH]; intros i [|k]; cbn [List.length seq combine nth_error];
    try reflexivity.
  - now rewrite Nat.add_0_r.
  - rewrite IH. destruct (nth_error fs k); cbn; [now rewrite Nat.add_succ_r|reflexivity].
Qed.

Lemma prompt_spec_blocks (fs : list fragment) :
  prompt_spec fs = LEAD_IN ++ numbered_blocks 1 fs.
Proof.
  unfold prompt_spec, rendered_blocks. now rewrite numbered_blocks_concat.
Qed.

(* ================================================================= *)
(** ** Claims on [build_user_message] *)

(** C3: [build_user_message] returns the fixed lead-in followed by each
    fragment rendered exactly once, in input order, as the block
    [【碎片 N】\n<content>\n\n] with its 1-based index N and its content
    untruncated (and, after it, the promotion part, empty without a
    promotion). *)
Theorem build_user_message_numbered (fs : list fragment) (p : option str_dict) :
  build_user_message fs p = prompt_spec fs ++ promotion_tail p /\
  List.length (rendered_blocks fs) = List.length fs /\
  (forall k f, nth_error fs k = Some f ->
     nth_error (rendered_blocks fs) k =
       Some ("【碎片 " ++ py_str_int (S k) ++ "】
" ++ content f ++ "
" ++ "
")).
Proof.
  split; [|split].
  - now rewrite build_user_message_eq, prompt_spec_blocks, append_assoc_str.
  - unfold rendered_blocks. rewrite length_map, length_combine, length_seq. lia.
  - intros k f Hk. unfold rendered_blocks.
    rewrite nth_error_map, nth_error_combine_seq, Hk. reflexivity.
Qed.

(** C4: the promotion block is appended iff both [product_name] and [link]
    are present and non-empty; otherwise the prompt is identical to the one
    built with no promotion at all. *)
Theorem build_user_message_promotion_all_or_nothing
  (fs : list fragment) (p : option str_dict) :
  match promotion_fields p with
  | Some (n, l) =>
      build_user_message fs p = build_user_message fs None ++ promotion_block n l /\
      build_user_message fs p <> build_user_message fs None
  | None => build_user_message fs p = build_user_message fs None
  end.
Proof.
  rewrite !build_user_message_eq. unfold promotion_tail.
  cbn [promotion_fields]. rewrite append_empty_str.
  destruct (promotion_fields p) as [[n l]|].
  - rewrite append_assoc_str. split; [reflexivity|].
    intro H. rewrite <- (append_empty_str (numbered_blocks 1 fs)) in H at 2.
    do 2 apply append_cancel_l in H.
    exact (promotion_block_nonempty n l H).
  - now rewrite append_empty_str.
Qed.

(** C5: [build_user_message] is a pure function of the fragments' contents
    and of the promotion's two fields: calls on inputs that agree on them
    (in particular, identical inputs) return identical text.  The source reads
    only its arguments and a local accumulator. *)
Theorem build_user_message_deterministic
  (fs1 fs2 : list fragment) (p1 p2 : option str_dict) :
  map content fs1 = map content fs2 ->
  promotion_fields p1 = promotion_fields p2 ->
  build_user_message fs1 p1 = build_user_message fs2 p2.
Proof.
  intros Hc Hp. rewrite !build_user_message_eq.
  unfold promotion_tail. rewrite Hp, (numbered_blocks_content fs1 fs2 Hc 1).
  reflexivity.
Qed.

(** Witness for C5: two calls with the same input. *)
Lemma build_user_message_deterministic_witness :
  map content [frag "A"; frag "B"] = map content [frag "A"; frag "B"] /\
  promotion_fields (Some [("product_name", "Pro"); ("link", "https://x.io")]) =
  promotion_fields (Some [("product_name", "Pro"); ("link", "https://x.io")]) /\
  build_user_message [frag "A"; frag "B"]
    (Some [("product_name", "Pro"); ("link", "https://x.io")]) =
  build_user_message [frag "A"; frag "B"]
    (Some [("product_name", "Pro"); ("link", "https://x.io")]).
Proof.
  split; [reflexivity|split; [reflexivity|]].
  apply build_user_message_deterministic; reflexivity.
Defined.

(** C9: on an empty fragment list [build_user_message] raises nothing and
    returns the lead-in alone, followed by the promotion part when both
    promotion fields are non-empty: it performs no non-emptiness check. *)
Theorem build_user_message_empty (p : option str_dict) :
  build_user_message [] p = LEAD_IN ++ promotion_tail p.
Proof. now rewrite build_user_message_eq. Qed.

(** C10: without a promotion, appending a fragment appends exactly its
    numbered block: the old prompt is a strict prefix of the new one. *)
Theorem build_user_message_append_prefix (fs : list fragment) (f : fragment) :
  build_user_message (fs ++ [f]) None =
    build_user_message fs None ++ fragment_block (S (List.length fs)) f /\
  exists u, u <> "" /\ build_user_message (fs ++ [f]) None = build_user_message fs None ++ u.
Proof.
  assert (H : build_user_message (fs ++ [f]) None =
              build_user_message fs None ++ fragment_block (S (List.length fs)) f).
  { rewrite !build_user_message_eq. cbn [promotion_tail promotion_fields].
    rewrite !append_empty_str, numbered_blocks_app, append_assoc_str. reflexivity. }
  split; [exact H|].
  exists (fragment_block (S (List.length fs)) f). split; [apply fragment_block_nonempty|exact H].
Qed.

Example loads_scenario :
  JsonLoads.loads (json_text
    "{'article':{'title':'T','content':'C'},'socialPosts':[{'platform':'FB','content':'P1'}]}")
  = Ok (JObj [("article", JObj [("title", JStr "T"); ("content", JStr "C")]);
              ("socialPosts", JArr [JObj [("platform", JStr "FB"); ("content", JStr "P1")]])]).
Proof. vm_compute. reflexivity. Qed.

Example loads_not_json : JsonLoads.loads "not json" = Raise (JSONDecodeError "Expecting value").
Proof. vm_compute. reflexivity. Qed.


Lemma read_posts_map (ps : list social_post) :
  read_posts (map social_post_to_json ps) =
  Ok (map (fun p => (JStr (platform p), JStr (post_content p))) ps).
Proof.
  induction ps as [|p ps IH]; [reflexivity|].
  cbn [map read_posts]. rewrite IH. reflexivity.
Qed.

Lemma read_result_to_json (r : generation_result) :
  read_result (generation_result_to_json r) =
  Ok (JStr (title (result_article r)), JStr (article_content (result_article r)),
      map (fun p => (JStr (platform p), JStr (post_content p))) (social_posts r)).
Proof.
  unfold read_result, generation_result_to_json. cbn.
  now rewrite read_posts_map.
Qed.
(* ================================================================= *)
(** ** Claims on the adapters and on [main] *)

(** C1 (counterexample): called with an empty fragment list, both adapters
    send their request; neither rejects the call. *)
Lemma adapters_send_on_empty_fragments :
  generate_with_gemini JsonLoads.loads (fun _ => Ok (json_text "{}")) "key" [] None =
    ([gemini_request "key" [] None], Ok (JObj [])) /\
  generate_with_openai JsonLoads.loads (fun _ => Ok (json_text "{}")) "key" [] None =
    ([openai_request "key" [] None], Ok (JObj [])).
Proof. split; vm_compute; reflexivity. Qed.

(** C1 (amended): the adapters perform no emptiness check: on an empty
    fragment list each sends exactly one request, whose user message is the
    lead-in alone (with the promotion part); the empty list is rejected by
    [main] (line 344), which then sends nothing and shows a warning. *)
Theorem empty_fragments_rejected_by_caller
  (json_loads : string -> outcome json) (backend : request -> outcome string)
  (key : string) (p : option str_dict) :
  fst (generate_with_gemini json_loads backend key [] p) = [gemini_request key [] p] /\
  fst (generate_with_openai json_loads backend key [] p) = [openai_request key [] p] /\
  build_user_message [] p = LEAD_IN ++ promotion_tail p /\
  (forall s using_secrets product_name promo_link clicked,
     main_generate json_loads backend s using_secrets [] product_name promo_link clicked =
       ([], UiWarning "⚠️ 請先在「捕捉靈感」模式中加入一些碎片")).
Proof.
  split; [reflexivity|split; [reflexivity|split]].
  - now rewrite build_user_message_eq.
  - intros; reflexivity.
Qed.

(** C2 (counterexample): a response that parses to an object without
    [article] (and with an empty [socialPosts]) is returned by both adapters
    as their result. *)
Lemma adapters_return_partial_result :
  let backend := fun _ : request => Ok (json_text "{'socialPosts':[]}") in
  snd (generate_with_gemini JsonLoads.loads backend "key" [frag "A"] None) =
    Ok (JObj [("socialPosts", JArr [])]) /\
  snd (generate_with_openai JsonLoads.loads backend "key" [frag "A"] None) =
    Ok (JObj [("socialPosts", JArr [])]) /\
  json_getitem (JObj [("socialPosts", JArr [])]) "article" = Raise (KeyError "article").
Proof. vm_compute. repeat split. Qed.

(** C2 (amended): the adapters validate nothing: whatever [json.loads]
    makes of the response text is returned as is, and only a text that
    [json.loads] rejects (or a failed request) raises. *)
Theorem adapters_return_parsed_text
  (json_loads : string -> outcome json) (backend : request -> outcome string)
  (key : string) (fs : list fragment) (p : option str_dict) (text : string) :
  backend (gemini_request key fs p) = Ok text ->
  backend (openai_request key fs p) = Ok text ->
  snd (generate_with_gemini json_loads backend key fs p) = json_loads text /\
  snd (generate_with_openai json_loads backend key fs p) = json_loads text.
Proof.
  intros Hg Ho. unfold generate_with_gemini, generate_with_openai. cbn [snd].
  rewrite Hg, Ho. split; reflexivity.
Qed.

Lemma adapters_return_parsed_text_witness :
  let backend := fun _ : request => Ok (json_text "{'socialPosts':[]}") in
  snd (generate_with_gemini JsonLoads.loads backend "key" [frag "A"] None) =
    JsonLoads.loads (json_text "{'socialPosts':[]}") /\
  snd (generate_with_openai JsonLoads.loads backend "key" [frag "A"] None) =
    JsonLoads.loads (json_text "{'socialPosts':[]}").
Proof.
  intro backend. apply adapters_return_parsed_text; reflexivity.
Defined.

(** C6: the two adapters send the same request semantics (key, system
    instruction and [build_user_message] text, JSON mode, temperature 0.7):
    Gemini as one prompt [SYSTEM_PROMPT + "\n\n" + user message], OpenAI as a
    system/user message pair; and on the same response they return the same
    outcome. *)
Theorem adapters_same_semantics
  (json_loads : string -> outcome json) (backend : request -> outcome string)
  (key : string) (fs : list fragment) (p : option str_dict) :
  let g := gemini_request key fs p in
  let o := openai_request key fs p in
  (exists model cfg, g = GeminiGenerateContent key model
                           (SYSTEM_PROMPT ++ NL ++ NL ++ build_user_message fs p) cfg) /\
  (exists model t rf, o = OpenAIChatCreate key model
                           [("system", SYSTEM_PROMPT); ("user", build_user_message fs p)] t rf) /\
  request_key g = request_key o /\
  request_prompt g = Some (SYSTEM_PROMPT ++ NL ++ NL ++ build_user_message fs p) /\
  request_prompt o = request_prompt g /\
  request_json_mode g = true /\ request_json_mode o = true /\
  request_temperature g = 7 # 10 /\ request_temperature o = 7 # 10 /\
  (backend g = backend o ->
   snd (generate_with_gemini json_loads backend key fs p) =
   snd (generate_with_openai json_loads backend key fs p)).
Proof.
  intros g o.
  split; [do 2 eexists; reflexivity|].
  split; [do 3 eexists; reflexivity|].
  repeat split.
  intro H. unfold generate_with_gemini, generate_with_openai. cbn [snd].
  fold g o. now rewrite H.
Qed.

(** C7: round trip: when the response text parses to the JSON document of a
    [generation_result], the value each adapter returns reads back (as the
    display reads it) the same title, the same content and the same social
    posts in the same order. *)
Theorem adapters_round_trip
  (json_loads : string -> outcome json) (backend : request -> outcome string)
  (key : string) (fs : list fragment) (p : option str_dict) (text : string)
  (r : generation_result) :
  backend (gemini_request key fs p) = Ok text ->
  backend (openai_request key fs p) = Ok text ->
  json_loads text = Ok (generation_result_to_json r) ->
  let expected :=
    (JStr (title (result_article r)), JStr (article_content (result_article r)),
     map (fun q => (JStr (platform q), JStr (post_content q))) (social_posts r)) in
  bind (snd (generate_with_gemini json_loads backend key fs p)) read_result = Ok expected /\
  bind (snd (generate_with_openai json_loads backend key fs p)) read_result = Ok expected.
Proof.
  intros Hg Ho Hj expected.
  unfold generate_with_gemini, generate_with_openai. cbn [snd].
  rewrite Hg, Ho. cbn [bind]. rewrite Hj. cbn [bind].
  rewrite read_result_to_json. split; reflexivity.
Qed.

Lemma adapters_round_trip_witness :
  bind (snd (generate_with_gemini JsonLoads.loads (fun _ => Ok scenario_text)
                "key" [frag "A"] None)) read_result =
    Ok (JStr "T", JStr "C", [(JStr "FB", JStr "P1")]) /\
  bind (snd (generate_with_openai JsonLoads.loads (fun _ => Ok scenario_text)
                "key" [frag "A"] None)) read_result =
    Ok (JStr "T", JStr "C", [(JStr "FB", JStr "P1")]).
Proof.
  apply (adapters_round_trip JsonLoads.loads (fun _ => Ok scenario_text) "key" [frag "A"]
           None scenario_text scenario_result);
    [reflexivity | reflexivity | vm_compute; reflexivity].
Defined.

(** C8 (counterexample): a response that is valid JSON of the wrong shape
    is not reported as a generation failure: [main] stores it as the result,
    and reading it later raises [KeyError('article')] outside the [try]. *)
Lemma wrong_shape_not_reported :
  main_generate JsonLoads.loads (fun _ => Ok (json_text "{}"))
    (mkSettings "gemini" "key") false [frag "A"] "" "" true =
    ([gemini_request "key" [frag "A"] None], UiStored (JObj [])) /\
  read_result (JObj []) = Raise (KeyError "article").
Proof. split; vm_compute; reflexivity. Qed.

(** C8 (amended): once the generate button is pressed (fragments present,
    key set), [main] sends exactly one request, to the selected provider, with
    no retry and no fallback; a failed request or a response text that
    [json.loads] rejects is shown as the single message
    ["❌ 生成失敗：" + str(e)]; any parsed value is stored as the result. *)
Theorem main_generate_single_attempt
  (json_loads : string -> outcome json) (backend : request -> outcome string)
  (s : settings) (using_secrets : bool) (fs : list fragment)
  (product_name promo_link : string) :
  fs <> [] ->
  (using_secrets || str_truthy (settings_api_key s)) = true ->
  let req := selected_request s fs (main_promotion product_name promo_link) in
  main_generate json_loads backend s using_secrets fs product_name promo_link true =
    ([req], match bind (backend req) json_loads with
            | Ok v => UiStored v
            | Raise e => UiError ("❌ 生成失敗：" ++ exn_str e)
            end).
Proof.
  intros Hfs Hkey req. unfold main_generate.
  destruct fs as [|f fs]; [contradiction|].
  destruct using_secrets, (str_truthy (settings_api_key s)); try discriminate;
    cbn [negb andb]; unfold main_dispatch, req, selected_request;
    destruct (String.eqb (api_provider s) "gemini"); reflexivity.
Qed.

Lemma main_generate_single_attempt_witness :
  let req := selected_request (mkSettings "openai" "key") [frag "A"]
               (main_promotion "Pro" "https://x.io") in
  main_generate JsonLoads.loads (fun _ => Raise (TransportError "Incorrect API key"))
    (mkSettings "openai" "key") false [frag "A"] "Pro" "https://x.io" true =
    ([req], UiError ("❌ 生成失敗：" ++ "Incorrect API key")).
Proof.
  apply (main_generate_single_attempt JsonLoads.loads
           (fun _ => Raise (TransportError "Incorrect API key"))
           (mkSettings "openai" "key") false [frag "A"] "Pro" "https://x.io").
  - discriminate.
  - reflexivity.
Defined.

(* ================================================================= *)
(** ** Further properties of [main] and of the code it calls *)

Example py_strip_ascii : py_strip "  hi there" = "hi there".
Proof. vm_compute. reflexivity. Qed.

Example py_strip_ideographic : py_strip "　靈感　" = "靈感".
Proof. vm_compute. reflexivity. Qed.

Example py_strip_blank : py_strip " 　 " = "".
Proof. vm_compute. reflexivity. Qed.

Lemma lstrip_bytes_step (l : list ascii) :
  lstrip_bytes l = l \/
  exists k r, l = (k ++ r)%list /\ List.length r < List.length l /\
    lstrip_bytes l = lstrip_bytes r /\
    (forall t, lstrip_bytes (l ++ t)%list = lstrip_bytes (r ++ t)%list).
Proof.
  destruct l as [|c1 r1]; [now left|].
  cbn [lstrip_bytes]. destruct (is_ascii_space c1) eqn:E1.
  { right. exists [c1], r1. repeat split; [cbn; lia|].
    intro t. cbn [app lstrip_bytes]. now rewrite E1. }
  destruct r1 as [|c2 r2]; [now left|].
  destruct (is_space2 c1 c2) eqn:E2.
  { right. exists [c1; c2], r2. repeat split; [cbn; lia|].
    intro t. cbn [app lstrip_bytes]. now rewrite E1, E2. }
  destruct r2 as [|c3 r3]; [now left|].
  destruct (is_space3 c1 c2 c3) eqn:E3; [|now left].
  right. exists [c1; c2; c3], r3. repeat split; [cbn; lia|].
  intro t. cbn [app lstrip_bytes]. now rewrite E1, E2, E3.
Qed.

Lemma lstrip_rev_bytes_step (l : list ascii) :
  lstrip_rev_bytes l = l \/
  exists k r, l = (k ++ r)%list /\ List.length r < List.length l /\
    lstrip_rev_bytes l = lstrip_rev_bytes r.
Proof.
  destruct l as [|c1 r1]; [now left|].
  cbn [lstrip_rev_bytes]. destruct (is_ascii_space c1) eqn:E1.
  { right. exists [c1], r1. repeat split. cbn; lia. }
  destruct r1 as [|c2 r2]; [now left|].
  destruct (is_space2 c2 c1) eqn:E2.
  { right. exists [c1; c2], r2. repeat split. cbn; lia. }
  destruct r2 as [|c3 r3]; [now left|].
  destruct (is_space3 c3 c2 c1) eqn:E3; [|now left].
  right. exists [c1; c2; c3], r3. repeat split. cbn; lia.
Qed.

(** Induction on the length of a byte list. *)
Lemma length_induction (P : list ascii -> Prop) :
  (forall l, (forall r, List.length r < List.length l -> P r) -> P l) -> forall l, P l.
Proof.
  intros H l. remember (List.length l) as n eqn:En.
  assert (Hn : List.length l <= n) by lia. clear En. revert l Hn.
  induction n as [|n IH]; intros l Hl; apply H; intros r Hr; [lia|].
  apply IH. lia.
Qed.

Lemma lstrip_bytes_length (l : list ascii) : List.length (lstrip_bytes l) <= List.length l.
Proof.
  induction l as [l IH] using length_induction.
  destruct (lstrip_bytes_step l) as [E | (k & r & _ & Hr & E & _)]; rewrite E; [lia|].
  specialize (IH r Hr). lia.
Qed.

Lemma lstrip_bytes_idem (l : list ascii) : lstrip_bytes (lstrip_bytes l) = lstrip_bytes l.
Proof.
  induction l as [l IH] using length_induction.
  destruct (lstrip_bytes_step l) as [E | (k & r & _ & Hr & E & _)]; rewrite E;
    [now rewrite E | now apply IH].
Qed.

Lemma lstrip_rev_bytes_idem (l : list ascii) :
  lstrip_rev_bytes (lstrip_rev_bytes l) = lstrip_rev_bytes l.
Proof.
  induction l as [l IH] using length_induction.
  destruct (lstrip_rev_bytes_step l) as [E | (k & r & _ & Hr & E)]; rewrite E;
    [now rewrite E | now apply IH].
Qed.

Lemma lstrip_rev_bytes_suffix (l : list ascii) : exists k, l = (k ++ lstrip_rev_bytes l)%list.
Proof.
  induction l as [l IH] using length_induction.
  destruct (lstrip_rev_bytes_step l) as [E | (k & r & El & Hr & E)].
  - exists []. now rewrite E.
  - destruct (IH r Hr) as [k' Ek']. exists (k ++ k')%list.
    rewrite E, <- app_assoc, <- Ek'. exact El.
Qed.

(** A prefix of a text without leading whitespace has none either. *)
Lemma lstrip_bytes_prefix (l t : list ascii) :
  lstrip_bytes (l ++ t)%list = (l ++ t)%list -> lstrip_bytes l = l.
Proof.
  intro H. destruct (lstrip_bytes_step l) as [E | (k & r & _ & Hr & _ & Ht)]; [exact E|].
  exfalso. rewrite Ht in H.
  pose proof (lstrip_bytes_length (r ++ t)) as L. rewrite H, !length_app in L. lia.
Qed.

Lemma rstrip_bytes_idem (l : list ascii) : rstrip_bytes (rstrip_bytes l) = rstrip_bytes l.
Proof. unfold rstrip_bytes. now rewrite rev_involutive, lstrip_rev_bytes_idem. Qed.

Lemma rstrip_bytes_prefix (l : list ascii) : exists t, l = (rstrip_bytes l ++ t)%list.
Proof.
  destruct (lstrip_rev_bytes_suffix (rev l)) as [k Ek]. exists (rev k).
  unfold rstrip_bytes. rewrite <- rev_app_distr, <- Ek. now rewrite rev_involutive.
Qed.

(** [s.strip()] returns a text that [strip] leaves as it is. *)
Lemma py_strip_idem (s : string) : py_strip (py_strip s) = py_strip s.
Proof.
  unfold py_strip at 1 2. rewrite list_ascii_of_string_of_list_ascii.
  set (x := lstrip_bytes (list_ascii_of_string s)).
  destruct (rstrip_bytes_prefix x) as [t Et].
  assert (Hx : lstrip_bytes x = x) by apply lstrip_bytes_idem.
  assert (Hy : lstrip_bytes (rstrip_bytes x) = rstrip_bytes x).
  { apply (lstrip_bytes_prefix _ t). now rewrite <- Et. }
  now rewrite Hy, rstrip_bytes_idem.
Qed.

Lemma assoc_get_set_eq {V} (kvs : list (string * V)) (k : string) (v : V) :
  assoc_get (assoc_set kvs k v) k = Some v.
Proof.
  induction kvs as [|[k' v'] kvs IH]; cbn [assoc_set assoc_get].
  - now rewrite String.eqb_refl.
  - destruct (String.eqb k k') eqn:E; cbn [assoc_get]; rewrite ?E; [reflexivity|exact IH].
Qed.

Lemma assoc_get_set_neq {V} (kvs : list (string * V)) (k k2 : string) (v : V) :
  k2 <> k -> assoc_get (assoc_set kvs k v) k2 = assoc_get kvs k2.
Proof.
  intro Hne. induction kvs as [|[k' v'] kvs IH]; cbn [assoc_set assoc_get].
  - apply String.eqb_neq in Hne. now rewrite Hne.
  - destruct (String.eqb k k') eqn:E; cbn [assoc_get].
    + apply String.eqb_eq in E. subst k'. apply String.eqb_neq in Hne. now rewrite Hne.
    + now rewrite IH.
Qed.

Lemma assoc_set_keys {V} (kvs : list (string * V)) (k : string) (v : V) :
  map fst (assoc_set kvs k v) =
  if existsb (String.eqb k) (map fst kvs) then map fst kvs else (map fst kvs ++ [k])%list.
Proof.
  induction kvs as [|[k' v'] kvs IH]; cbn [assoc_set map existsb fst]; [reflexivity|].
  destruct (String.eqb k k') eqn:E; cbn [map fst orb].
  - apply String.eqb_eq in E. now subst.
  - rewrite IH. now destruct (existsb (String.eqb k) (map fst kvs)).
Qed.

Lemma assoc_get_keys {V} (kvs : list (string * V)) (k : string) (v : V) :
  assoc_get kvs k = Some v -> existsb (String.eqb k) (map fst kvs) = true.
Proof.
  induction kvs as [|[k' v'] kvs IH]; cbn [assoc_get map existsb fst]; [discriminate|].
  destruct (String.eqb k k'); [reflexivity|]. intro H. rewrite (IH H). apply orb_true_r.
Qed.

(** X1: [📝 加入碎片] on an existing project: a blank text (after [strip])
    changes nothing and saves nothing; otherwise the stripped, non-empty text
    becomes the project's first fragment, the others follow in their order,
    no other project and no project name changes, and the data is saved. *)
Theorem add_fragment_prepends_stripped
  (current new_fragment now : string) (st : app_state) (fs : list fragment) :
  assoc_get (projects (data st)) current = Some fs ->
  exists st', add_fragment current new_fragment now st = Ok st' /\
  if str_truthy (py_strip new_fragment) then
    assoc_get (projects (data st')) current =
      Some (mkFragment (py_strip new_fragment) now :: fs) /\
    py_strip new_fragment <> "" /\
    py_strip (py_strip new_fragment) = py_strip new_fragment /\
    (forall k, k <> current -> assoc_get (projects (data st')) k = assoc_get (projects (data st)) k) /\
    map fst (projects (data st')) = map fst (projects (data st)) /\
    data_file st' = Some (data st')
  else st' = st.
Proof.
  intro Hfs. unfold add_fragment.
  destruct (str_truthy (py_strip new_fragment)) eqn:Et; [|now exists st].
  rewrite Hfs. eexists. split; [reflexivity|]. cbn [save_data data data_file projects].
  repeat split.
  - apply assoc_get_set_eq.
  - intro H. rewrite H in Et. discriminate.
  - apply py_strip_idem.
  - intros k Hk. now apply assoc_get_set_neq.
  - rewrite assoc_set_keys, (assoc_get_keys _ _ _ Hfs). reflexivity.
Qed.

Definition sample_state : app_state :=
  let d := mkAppData [("blog", [frag "A"])] "blog" (mkSettings "gemini" "key") in
  mkAppState d (Some d).

Lemma add_fragment_prepends_stripped_witness :
  exists st', add_fragment "blog" "  　new idea \n" "2026-10-14T09:00:00" sample_state = Ok st' /\
  if str_truthy (py_strip "  　new idea \n") then
    assoc_get (projects (data st')) "blog" =
      Some (mkFragment (py_strip "  　new idea \n") "2026-10-14T09:00:00" :: [frag "A"]) /\
    py_strip "  　new idea \n" <> "" /\
    py_strip (py_strip "  　new idea \n") = py_strip "  　new idea \n" /\
    (forall k, k <> "blog" -> assoc_get (projects (data st')) k =
                              assoc_get (projects (data sample_state)) k) /\
    map fst (projects (data st')) = map fst (projects (data sample_state)) /\
    data_file st' = Some (data st')
  else st' = sample_state.
Proof. apply add_fragment_prepends_stripped. reflexivity. Defined.

(** X2: a fragment just added is rendered first, as [【碎片 1】], in the next
    prompt built from the project; the earlier fragments follow, each
    numbered one higher than before. *)
Theorem add_fragment_first_in_prompt
  (current new_fragment now : string) (st st' : app_state) (fs : list fragment)
  (p : option str_dict) :
  assoc_get (projects (data st)) current = Some fs ->
  str_truthy (py_strip new_fragment) = true ->
  add_fragment current new_fragment now st = Ok st' ->
  exists fs', assoc_get (projects (data st')) current = Some fs' /\
    build_user_message fs' p =
      LEAD_IN ++ fragment_block 1 (mkFragment (py_strip new_fragment) now) ++
      numbered_blocks 2 fs ++ promotion_tail p /\
    build_user_message fs p = LEAD_IN ++ numbered_blocks 1 fs ++ promotion_tail p.
Proof.
  intros Hfs Ht Hadd. unfold add_fragment in Hadd. rewrite Ht, Hfs in Hadd.
  injection Hadd as <-. cbn [save_data data projects].
  eexists. split; [apply assoc_get_set_eq|].
  rewrite !build_user_message_eq. cbn [numbered_blocks].
  now rewrite append_assoc_str.
Qed.

Lemma add_fragment_first_in_prompt_witness :
  exists fs', assoc_get (projects (data (mkAppState
      (mkAppData [("blog", [frag "new"; frag "A"])] "blog" (mkSettings "gemini" "key"))
      (Some (mkAppData [("blog", [frag "new"; frag "A"])] "blog" (mkSettings "gemini" "key"))))))
      "blog" = Some fs' /\
    build_user_message fs' None =
      LEAD_IN ++ fragment_block 1 (mkFragment (py_strip " new") "2026-01-01T00:00:00") ++
      numbered_blocks 2 [frag "A"] ++ promotion_tail None /\
    build_user_message [frag "A"] None = LEAD_IN ++ numbered_blocks 1 [frag "A"] ++ promotion_tail None.
Proof.
  apply (add_fragment_first_in_prompt "blog" " new" "2026-01-01T00:00:00" sample_state);
    [reflexivity | reflexivity | vm_compute; reflexivity].
Defined.




(** X4: [➕ 建立] with a blank name (after [strip]) changes nothing; otherwise
    the stripped name becomes the current project with an empty fragment
    list (an existing project of that name loses its fragments), a new name
    is added after the existing ones, an existing name keeps its place, the
    other projects are untouched, and the data is saved. *)
Theorem create_project_effect (new_project : string) (st : app_state) :
  let name := py_strip new_project in
  let st' := create_project new_project st in
  if str_truthy name then
    assoc_get (projects (data st')) name = Some [] /\
    current_project (data st') = name /\
    map fst (projects (data st')) =
      (if existsb (String.eqb name) (map fst (projects (data st)))
       then map fst (projects (data st))
       else map fst (projects (data st)) ++ [name])%list /\
    (forall k, k <> name -> assoc_get (projects (data st')) k = assoc_get (projects (data st)) k) /\
    app_settings (data st') = app_settings (data st) /\
    data_file st' = Some (data st')
  else st' = st.
Proof.
  intros name st'. subst st'. unfold create_project. fold name.
  destruct (str_truthy name); [|reflexivity].
  cbn [save_data data data_file projects current_project app_settings].
  repeat split.
  - apply assoc_get_set_eq.
  - apply assoc_set_keys.
  - intros k Hk. now apply assoc_get_set_neq.
Qed.


(** X6: with a non-empty [API_KEY] in the secrets, the stored-key check is
    skipped and pressing the button sends one request built from the stored
    settings: the provider of [data["settings"]] and its (possibly empty)
    key, not the secret key. *)
Theorem secrets_run_uses_stored_key
  (json_loads : string -> outcome json) (backend : request -> outcome string)
  (sec : str_dict) (secret_key : string) (s : settings) (fs : list fragment)
  (product_name promo_link : string) :
  dict_get sec "API_KEY" = Some secret_key ->
  str_truthy secret_key = true ->
  fs <> [] ->
  fst (main_ai_branch json_loads backend (Ok sec) s fs product_name promo_link true) =
    [selected_request s fs (main_promotion product_name promo_link)] /\
  request_key (selected_request s fs (main_promotion product_name promo_link)) =
    settings_api_key s.
Proof.
  intros Hk Ht Hfs. unfold main_ai_branch, get_api_settings. rewrite Hk, Ht.
  unfold main_generate. destruct fs as [|f fs]; [contradiction|]. cbn [negb andb].
  unfold main_dispatch, selected_request, generate_with_gemini, generate_with_openai.
  destruct (String.eqb (api_provider s) "gemini"); split; reflexivity.
Qed.

Lemma secrets_run_uses_stored_key_witness :
  fst (main_ai_branch JsonLoads.loads (fun _ => Ok scenario_text)
         (Ok [("API_KEY", "sk-secret")]) (mkSettings "gemini" "") [frag "A"] "" "" true) =
    [selected_request (mkSettings "gemini" "") [frag "A"] (main_promotion "" "")] /\
  request_key (selected_request (mkSettings "gemini" "") [frag "A"] (main_promotion "" "")) =
    settings_api_key (mkSettings "gemini" "").
Proof.
  apply (secrets_run_uses_stored_key JsonLoads.loads (fun _ => Ok scenario_text)
           [("API_KEY", "sk-secret")] "sk-secret");
    [reflexivity | reflexivity | discriminate].
Defined.

(** X7: without usable secrets and with an empty stored key, the branch
    shows the API-key error and sends nothing, whether or not the button is
    pressed. *)
Theorem no_key_no_request
  (json_loads : string -> outcome json) (backend : request -> outcome string)
  (secrets : outcome str_dict) (s : settings) (fs : list fragment)
  (product_name promo_link : string) (clicked : bool) :
  snd (get_api_settings secrets) = false ->
  settings_api_key s = "" ->
  fs <> [] ->
  main_ai_branch json_loads backend secrets s fs product_name promo_link clicked =
    ([], UiError "⚠️ 請先在側邊欄設定中輸入 API Key").
Proof.
  intros Hs Hk Hfs. unfold main_ai_branch.
  destruct (get_api_settings secrets) as [[sp sk] us]. cbn [snd] in Hs. subst us.
  unfold main_generate. destruct fs as [|f fs]; [contradiction|].
  rewrite Hk. reflexivity.
Qed.

Lemma no_key_no_request_witness :
  main_ai_branch JsonLoads.loads (fun _ => Ok scenario_text) (Ok [("API_KEY", "")])
    (mkSettings "openai" "") [frag "A"] "Pro" "https://x.io" true =
    ([], UiError "⚠️ 請先在側邊欄設定中輸入 API Key").
Proof. apply no_key_no_request; [reflexivity | reflexivity | discriminate]. Defined.

(** X8: a run changes [st.session_state.result] only to a value [json.loads]
    made of the response to a request sent in that run; when every request
    of the run fails (or none is sent), the previous result stays displayed. *)
Theorem session_result_only_from_response
  (json_loads : string -> outcome json) (backend : request -> outcome string)
  (secrets : outcome str_dict) (s : settings) (fs : list fragment)
  (product_name promo_link : string) (clicked : bool) (old : option json) :
  let run := main_ai_branch json_loads backend secrets s fs product_name promo_link clicked in
  (session_result old (snd run) = old \/
   exists r text v, In r (fst run) /\ backend r = Ok text /\ json_loads text = Ok v /\
                    session_result old (snd run) = Some v) /\
  ((forall r, In r (fst run) -> exists e, bind (backend r) json_loads = Raise e) ->
   session_result old (snd run) = old).
Proof.
  intro run. subst run. unfold main_ai_branch.
  destruct (get_api_settings secrets) as [[sp sk] us].
  unfold main_generate. destruct fs as [|f fs]; [split; [now left | reflexivity]|].
  destruct (negb us && negb (str_truthy (settings_api_key s)));
    [split; [now left | reflexivity]|].
  destruct clicked; [|split; [now left | reflexivity]].
  unfold main_dispatch, generate_with_gemini, generate_with_openai.
  set (promotion := main_promotion product_name promo_link).
  set (req := if String.eqb (api_provider s) "gemini"
              then gemini_request (settings_api_key s) (f :: fs) promotion
              else openai_request (settings_api_key s) (f :: fs) promotion).
  assert (Hrun : (if String.eqb (api_provider s) "gemini"
                  then ([gemini_request (settings_api_key s) (f :: fs) promotion],
                        text <- backend (gemini_request (settings_api_key s) (f :: fs) promotion) ;;
                        json_loads text)
                  else ([openai_request (settings_api_key s) (f :: fs) promotion],
                        text <- backend (openai_request (settings_api_key s) (f :: fs) promotion) ;;
                        json_loads text)) =
                 ([req], text <- backend req ;; json_loads text)).
  { unfold req. now destruct (String.eqb (api_provider s) "gemini"). }
  rewrite Hrun. cbn [fst snd].
  destruct (backend req) as [text|e] eqn:Eb; cbn [bind].
  - destruct (json_loads text) as [v|e] eqn:Ej; cbn [session_result].
    + split.
      * right. exists req, text, v. repeat split; [now left | exact Eb | exact Ej].
      * intro H. destruct (H req (or_introl eq_refl)) as [e He].
        rewrite Eb in He. cbn [bind] in He. congruence.
    + split; [now left | reflexivity].
  - split; [now left | reflexivity].
Qed.

(** X9: the sidebar and the generation agree on the provider: the
    selectbox shows Gemini (index 0) exactly when [main] sends a Gemini
    request; any other stored provider value, not only ["openai"], shows and
    uses OpenAI. *)
Theorem provider_index_matches_request (s : settings) (fs : list fragment)
  (p : option str_dict) :
  match selected_request s fs p with
  | GeminiGenerateContent _ _ _ _ => provider_index s = 0 /\ api_provider s = "gemini"
  | OpenAIChatCreate _ _ _ _ _ => provider_index s = 1 /\ api_provider s <> "gemini"
  end.
Proof.
  unfold selected_request, provider_index.
  destruct (String.eqb (api_provider s) "gemini") eqn:E.
  - split; [reflexivity|]. now apply String.eqb_eq.
  - split; [reflexivity|]. now apply String.eqb_neq.
Qed.

(** X10: after [💾 儲存設定] with a provider and a key, the next generation
    request carries that key, goes to Gemini exactly when the provider is
    ["gemini"], and the saved file holds the new settings. *)
Theorem save_settings_then_request (provider key : string) (st : app_state)
  (fs : list fragment) (p : option str_dict) :
  let st' := save_settings provider key st in
  request_key (selected_request (app_settings (data st')) fs p) = key /\
  (String.eqb provider "gemini" = true <->
     selected_request (app_settings (data st')) fs p = gemini_request key fs p) /\
  app_settings (load_data (data_file st')) = mkSettings provider key /\
  projects (data st') = projects (data st).
Proof.
  intro st'. subst st'. unfold save_settings, save_data, selected_request.
  cbn [data data_file app_settings api_provider settings_api_key projects load_data].
  destruct (String.eqb provider "gemini") eqn:E; repeat split; try reflexivity.
  - discriminate.
  - intro H. discriminate H.
Qed.

(** X11: the promotion [main] passes is dropped unless both text inputs are
    non-empty; then the prompt is the one without promotion followed by the
    promotion block with the two inputs verbatim. *)
Theorem main_promotion_in_prompt (fs : list fragment) (product_name promo_link : string) :
  build_user_message fs (main_promotion product_name promo_link) =
  build_user_message fs None ++
    (if str_truthy product_name && str_truthy promo_link
     then promotion_block product_name promo_link else "").
Proof.
  rewrite !build_user_message_eq. unfold main_promotion, promotion_tail.
  cbn [promotion_fields]. rewrite append_empty_str, append_assoc_str.
  destruct (str_truthy product_name && str_truthy promo_link) eqn:E; [|reflexivity].
  cbn [promotion_fields dict_get]. cbn. rewrite E. reflexivity.
Qed.

(** X12: every button handler that changes the session data also writes it
    to the file: loading the file afterwards gives the data shown. *)
Theorem handlers_persist_changes (st : app_state) :
  (forall provider key, let st' := save_settings provider key st in
     load_data (data_file st') = data st') /\
  (forall new_project, let st' := create_project new_project st in
     data st' <> data st -> load_data (data_file st') = data st') /\
  (forall current new_fragment now st', add_fragment current new_fragment now st = Ok st' ->
     data st' <> data st -> load_data (data_file st') = data st') /\
  (forall current i st', delete_fragment current i st = Some st' ->
     load_data (data_file st') = data st').
Proof.
  split; [|split; [|split]].
  - intros provider key. reflexivity.
  - intros new_project st' H. subst st'. unfold create_project in *.
    destruct (str_truthy (py_strip new_project)); [reflexivity|contradiction].
  - intros current new_fragment now st' Hadd H. unfold add_fragment in Hadd.
    destruct (str_truthy (py_strip new_fragment)).
    + destruct (assoc_get (projects (data st)) current); [|discriminate].
      injection Hadd as <-. reflexivity.
    + injection Hadd as <-. contradiction.
  - intros current i st' Hdel. unfold delete_fragment in Hdel.
    destruct (assoc_get (projects (data st)) current); [|discriminate].
    destruct (list_pop l i); [|discriminate]. injection Hdel as <-. reflexivity.
Qed.
